(** * 3cx_api/main.py: the contact-lookup endpoint

    A shallow embedding of [get_current_credentials] and [lookup_contact]
    of [3cx_api/main.py], with the SQL text of the lookup read as a
    three-valued predicate over the rows of [Users].

    Conventions.
    - A Python [str] is a [string]; [None] is [None] of an [option].
    - A SQL value of a nullable text column is an [option string], [None]
      being NULL; a SQL truth value is an [option bool], [None] being
      UNKNOWN.
    - Text is compared character by character (a case-sensitive
      collation). The engine behind [get_db] is not in [main.py]; what
      differs between engines for this query with such a collation, the
      escape character of LIKE, is a field of the session.
    - The dictionary [parameters] is a [gmap] from names to bound values.
    - The endpoint runs in a state and error monad [M] over a [World]: the
      counters of the rate limiter per client address, and a trace of the
      log records and of the queries executed. Records of [logger.debug]
      are left out of the trace; the warning and the error records are in.
    - The limiter counts the hits of one window; the expiry of the window
      and the hourly default limit of the application are not modelled. *)

From stdpp Require Import gmap strings list.
From Stdlib Require Import String Ascii ZArith.

Local Open Scope Z_scope.

(** ** Python strings *)

Module Py.

(** [s.replace(' ', '')] *)
Fixpoint replace_space (s : string) : string :=
  match s with
  | EmptyString => EmptyString
  | String c s' =>
      if Ascii.eqb c " " then replace_space s'
      else String c (replace_space s')
  end.

(** [s.split(sep)] for a one-character separator: every occurrence of
    the separator cuts, empty pieces are kept, and the empty string
    gives one empty piece. *)
Fixpoint split (sep : ascii) (s : string) : list string :=
  match s with
  | EmptyString => [EmptyString]
  | String c s' =>
      if Ascii.eqb c sep then EmptyString :: split sep s'
      else match split sep s' with
           | [] => [String c EmptyString]
           | t :: ts => String c t :: ts
           end
  end.

(** [sep.join(l)] *)
Fixpoint join (sep : string) (l : list string) : string :=
  match l with
  | [] => EmptyString
  | [x] => x
  | x :: l' => x +:+ sep +:+ join sep l'
  end.

(** Truth value of an [Optional[str]]: [None] and [""] are false. *)
Definition truthy (o : option string) : bool :=
  match o with
  | None => false
  | Some EmptyString => false
  | Some (String _ _) => true
  end.

(** [o or ""] *)
Definition or_empty (o : option string) : string :=
  if truthy o then default EmptyString o else EmptyString.

(** [secrets.compare_digest(a, b)] on two ASCII strings: their equality
    (the running time is not modelled). [HTTPBasic] decodes the header as
    ASCII; the configured values are taken to be ASCII too. *)
Definition compare_digest (a b : string) : bool := String.eqb a b.

End Py.

(** ** SQL values, three-valued logic, REPLACE and LIKE *)

Module Sql.

(** The escape character of LIKE when the statement has no ESCAPE
    clause: none in standard SQL and SQLite, the backslash in MySQL and
    PostgreSQL. Which engine [get_db] connects to is not in [main.py]. *)
Inductive LikeEscape := NoEscape | Backslash.

Definition is_escape (e : LikeEscape) (c : ascii) : bool :=
  match e with
  | NoEscape => false
  | Backslash => Ascii.eqb c "\"
  end.

(** [s LIKE p]: [%] stands for any run of characters, [_] for any one
    character, an escape character makes the next pattern character
    literal (a trailing escape character stands for itself), any other
    character stands for itself. *)
Fixpoint like (e : LikeEscape) (p : string) : string -> bool :=
  match p with
  | EmptyString => fun s => match s with EmptyString => true | _ => false end
  | String c p' =>
      if is_escape e c then
        match p' with
        | EmptyString => fun s =>
            match s with
            | String x EmptyString => Ascii.eqb x c
            | _ => false
            end
        | String d p'' => fun s =>
            match s with
            | String x s' => Ascii.eqb x d && like e p'' s'
            | EmptyString => false
            end
        end
      else if Ascii.eqb c "%" then
        fix any (s : string) : bool :=
          like e p' s
          || match s with
             | String _ s' => any s'
             | EmptyString => false
             end
      else if Ascii.eqb c "_" then fun s =>
        match s with
        | String _ s' => like e p' s'
        | EmptyString => false
        end
      else fun s =>
        match s with
        | String x s' => Ascii.eqb x c && like e p' s'
        | EmptyString => false
        end
  end.

Definition truth := option bool.

Definition and3 (a b : truth) : truth :=
  match a, b with
  | Some false, _ | _, Some false => Some false
  | Some true, Some true => Some true
  | _, _ => None
  end.

Definition or3 (a b : truth) : truth :=
  match a, b with
  | Some true, _ | _, Some true => Some true
  | Some false, Some false => Some false
  | _, _ => None
  end.

(** [v IS NOT NULL] *)
Definition is_not_null (v : option string) : truth :=
  Some (match v with Some _ => true | None => false end).

(** [a = b] *)
Definition eq3 (a b : option string) : truth :=
  match a, b with
  | Some x, Some y => Some (String.eqb x y)
  | _, _ => None
  end.

(** [REPLACE(v, ' ', '')] *)
Definition replace_space (v : option string) : option string :=
  Py.replace_space <$> v.

(** [v LIKE p] *)
Definition like3 (e : LikeEscape) (v p : option string) : truth :=
  match v, p with
  | Some s, Some pat => Some (like e pat s)
  | _, _ => None
  end.

(** A WHERE clause keeps the rows on which it is TRUE. *)
Definition holds (t : truth) : bool :=
  match t with Some true => true | _ => false end.

End Sql.

(** ** Data *)

(** A row of the table [Users], with the columns the query reads. *)
Record UsersRow := {
  ID : Z;
  RealName : option string;
  WorkPhone : option string;
  MobilePhone : option string;
  HomePhone : option string;
  EmailAddress : option string;
  Organization : option string
}.

(** A row of the result, under the aliases of the SELECT list. *)
Module Row.
Record t := {
  contactid : Z;
  firstname : option string;
  lastname : option string;
  PhoneBusiness : option string;
  PhoneMobile : option string;
  PhoneHome : option string;
  Email : option string;
  company : option string
}.
End Row.

(** An entry of ["contacts"] in the response ([contact_data]); [email] is
    the one field that can hold [None], JSON's null. *)
Module Contact.
Record t := {
  contactid : Z;
  firstname : string;
  lastname : string;
  company : string;
  email : option string;
  phonebusiness : string;
  phonemobile : string;
  phonehome : string
}.
End Contact.

Record Response := { contacts : list Contact.t }.

Record HTTPException := { status_code : Z; detail : string }.

Record HTTPBasicCredentials := { username : string; password : string }.

(** What the route reads of a request: the address of the client (the
    limiter's key, [get_remote_address]), the credentials that
    [Security(security)] decoded from the Authorization header, and the
    two query parameters ([None] when the parameter is not in the URL).
    A request without credentials is answered by [HTTPBasic] itself and
    does not reach [get_current_credentials]. *)
Record Request := {
  client_host : string;
  credentials : HTTPBasicCredentials;
  query_Number : option string;
  query_Email : option string
}.

(** The session that [get_db] yields, as far as one [execute] sees it: the
    engine's LIKE escape, the rows of [Users], and the exception that
    [execute] or [fetchall] raises, if any. *)
Record Session := {
  like_escape : Sql.LikeEscape;
  Users : list UsersRow;
  failure : option string
}.

(** ** Effects: the limiter's storage and what the server records *)

Inductive Level := WARNING | ERROR.

Inductive Event :=
| Log (level : Level) (message : string)
| Execute (parameters : gmap string (option string)).

(** [storage] holds, per client address, the hits counted in the current
    one-minute window (the expiry of a window is not modelled); [trace]
    is the events so far, oldest first. *)
Record World := {
  storage : gmap string nat;
  trace : list Event
}.

Definition M (A : Type) : Type := World -> (HTTPException + A) * World.

#[global] Instance M_ret : MRet M := fun A x w => (inr x, w).

#[global] Instance M_bind : MBind M := fun A B f m w =>
  match m w with
  | (inl e, w') => (inl e, w')
  | (inr x, w') => f x w'
  end.

Definition raise {A : Type} (e : HTTPException) : M A := fun w => (inl e, w).

Definition emit (ev : Event) : M unit := fun w =>
  (inr tt, {| storage := storage w; trace := trace w ++ [ev] |}).

Definition status_of {A : Type} (r : HTTPException + A) : Z :=
  match r with
  | inl e => status_code e
  | inr _ => 200
  end.

(** The queries executed in a trace. *)
Fixpoint executed (t : list Event) : list (gmap string (option string)) :=
  match t with
  | [] => []
  | Execute p :: t' => p :: executed t'
  | Log _ _ :: t' => executed t'
  end.

(** ** The rate limiter *)

(** [@limiter.limit("20/minute")] *)
Definition limit_amount : nat := 20.

(** The hits counted for [key] in the window. *)
Definition hits (w : World) (key : string) : nat :=
  default 0%nat (storage w !! key).

(** One hit of the limit for [key]: the counter of the window goes up by
    one, and the hit fails with [RateLimitExceeded] (an [HTTPException]
    of status 429) when the counter is then above the amount. *)
Definition limiter_hit (key : string) : M unit := fun w =>
  let n := S (hits w key) in
  let w' := {| storage := <[key := n]> (storage w); trace := trace w |} in
  if (n <=? limit_amount)%nat then (inr tt, w')
  else (inl {| status_code := 429; detail := "20 per 1 minute" |}, w').

(** A client address has exceeded the threshold when the window already
    counts [limit_amount] hits or more. *)
Definition exceeded (w : World) (key : string) : Prop :=
  (limit_amount <= hits w key)%nat.

(** ** The query *)

(** The WHERE clause of the query, on one row of [Users], with the four
    bound values. *)
Definition where_clause (e : Sql.LikeEscape)
    (number like_pattern email exact_email : option string) (u : UsersRow)
    : Sql.truth :=
  Sql.or3
    (Sql.and3 (Sql.is_not_null number)
       (Sql.or3
          (Sql.or3
             (Sql.like3 e (Sql.replace_space (HomePhone u)) like_pattern)
             (Sql.like3 e (Sql.replace_space (WorkPhone u)) like_pattern))
          (Sql.like3 e (Sql.replace_space (MobilePhone u)) like_pattern)))
    (Sql.and3 (Sql.is_not_null email)
       (Sql.eq3 (EmailAddress u) exact_email)).

(** The SELECT list. *)
Definition select (u : UsersRow) : Row.t :=
  {| Row.contactid := ID u;
     Row.firstname := RealName u;
     Row.lastname := RealName u;
     Row.PhoneBusiness := WorkPhone u;
     Row.PhoneMobile := MobilePhone u;
     Row.PhoneHome := HomePhone u;
     Row.Email := EmailAddress u;
     Row.company := Organization u |}.

(** [db.execute(query, parameters).fetchall()]: the exception of the
    session if it has one, an exception when a bound name has no value,
    else the selected rows in the order of the table. *)
Definition execute (db : Session) (parameters : gmap string (option string))
    : string + list Row.t :=
  match failure db with
  | Some exn => inl exn
  | None =>
      match parameters !! "number", parameters !! "like_pattern",
            parameters !! "email", parameters !! "exact_email" with
      | Some number, Some like_pattern, Some email, Some exact_email =>
          inr (select <$>
                 List.filter
                   (fun u => Sql.holds
                      (where_clause (like_escape db)
                         number like_pattern email exact_email u))
                   (Users db))
      | _, _, _, _ => inl "A value is required for bind parameter"
      end
  end.

(** ** The endpoint *)

Section Service.

(** [FASTAPI_API_KEY] and [FASTAPI_API_PASSWORD] of the environment,
    stripped. *)
Variables (API_KEY API_PASSWORD : string).

Definition get_current_credentials (c : HTTPBasicCredentials) : M string :=
  let correct_username := Py.compare_digest (username c) API_KEY in
  let correct_password := Py.compare_digest (password c) API_PASSWORD in
  if negb (correct_username && correct_password) then
    emit (Log WARNING "Invalid API Key or Password");;
    raise {| status_code := 403; detail := "Could not validate credentials" |}
  else mret (username c).

(** The dictionary [parameters]. *)
Definition build_parameters (Number Email : option string)
    : gmap string (option string) :=
  let parameters : gmap string (option string) := ∅ in
  let parameters :=
    if Py.truthy Number then
      let search_number := Py.replace_space (default EmptyString Number) in
      <["number" := Number]>
        (<["like_pattern" := Some ("%" +:+ search_number +:+ "%")]> parameters)
    else
      <["number" := None]> (<["like_pattern" := None]> parameters) in
  if Py.truthy Email then
    <["email" := Email]> (<["exact_email" := Email]> parameters)
  else
    <["email" := None]> (<["exact_email" := None]> parameters).

(** The body of the loop over the results. *)
Definition contact_data (contact : Row.t) : Contact.t :=
  let real_name := Py.or_empty (Row.firstname contact) in
  let name_parts := Py.split " " real_name in
  let first_name :=
    match name_parts with
    | [] => EmptyString
    | x :: _ => x
    end in
  let last_name :=
    if (1 <? List.length name_parts)%nat then Py.join " " (tail name_parts)
    else EmptyString in
  {| Contact.contactid := Row.contactid contact;
     Contact.firstname := first_name;
     Contact.lastname := last_name;
     Contact.company := Py.or_empty (Row.company contact);
     Contact.email := Row.Email contact;
     Contact.phonebusiness := Py.or_empty (Row.PhoneBusiness contact);
     Contact.phonemobile := Py.or_empty (Row.PhoneMobile contact);
     Contact.phonehome := Py.or_empty (Row.PhoneHome contact) |}.

(** The [try] block around the query. *)
Definition run_query (db : Session)
    (parameters : gmap string (option string)) : M (list Row.t) :=
  emit (Execute parameters);;
  match execute db parameters with
  | inr results => mret results
  | inl exn =>
      emit (Log ERROR ("Database error: " +:+ exn));;
      raise {| status_code := 500; detail := "Database error occurred." |}
  end.

(** The body of [lookup_contact]. *)
Definition lookup_contact (db : Session) (Number Email : option string)
    : M Response :=
  if negb (Py.truthy Number) && negb (Py.truthy Email) then
    raise {| status_code := 400;
             detail := "Either Number or Email must be provided" |}
  else
    results ← run_query db (build_parameters Number Email);
    match results with
    | [] => raise {| status_code := 404; detail := "Contact not found" |}
    | _ :: _ => mret {| contacts := contact_data <$> results |}
    end.

(** [@limiter.limit("20/minute")] around a function: the wrapper takes
    the hit for the address of the [request] it is called with, then
    calls the function. *)
Definition limit {A : Type} (request : Request) (f : M A) : M A :=
  limiter_hit (client_host request);; f.

(** [GET /contacts]. The route registered by [@app.get] is the wrapper
    that [limiter.limit] returns. FastAPI first resolves the parameters
    declared with [Security] and [Depends] (here
    [get_current_credentials], then [get_db], which gives [db]), and
    only then calls the registered function with the values: an
    exception raised by a dependency ends the request before the wrapper
    runs. *)
Definition get_contacts (db : Session) (request : Request) : M Response :=
  api_key ← get_current_credentials (credentials request);
  limit request
    (lookup_contact db (query_Number request) (query_Email request)).

(** The state of the server after a sequence of requests. *)
Fixpoint serve (db : Session) (requests : list Request) (w : World) : World :=
  match requests with
  | [] => w
  | request :: requests' =>
      serve db requests' (snd (get_contacts db request w))
  end.

End Service.

(** ** The properties of the specification, in its words *)

(** [needle] is a substring of [s]. *)
Definition contains (s needle : string) : Prop :=
  exists pre post : string, s = pre +:+ needle +:+ post.

(** The phone predicate: one of the three phone columns, its spaces
    stripped, contains the input, its spaces stripped. *)
Definition phone_matches (Number : string) (u : UsersRow) : Prop :=
  exists (col : option string) (phone : string),
    col ∈ [WorkPhone u; MobilePhone u; HomePhone u]
    /\ col = Some phone
    /\ contains (Py.replace_space phone) (Py.replace_space Number).

(** The email predicate: the email column equals the input. *)
Definition email_matches (Email : string) (u : UsersRow) : Prop :=
  EmailAddress u = Some Email.

(** A character with a meaning of its own in a LIKE pattern. *)
Definition meta (e : Sql.LikeEscape) (c : ascii) : bool :=
  Sql.is_escape e c || Ascii.eqb c "%" || Ascii.eqb c "_".

Fixpoint plain (e : Sql.LikeEscape) (s : string) : bool :=
  match s with
  | EmptyString => true
  | String c s' => negb (meta e c) && plain e s'
  end.

Fixpoint all_spaces (s : string) : bool :=
  match s with
  | EmptyString => true
  | String c s' => Ascii.eqb c " " && all_spaces s'
  end.

(** What [LIKE :like_pattern] gives on one phone column. *)
Definition phone_like (e : Sql.LikeEscape) (Number : string)
    (col : option string) : bool :=
  match col with
  | Some phone =>
      Sql.like e ("%" +:+ Py.replace_space Number +:+ "%")
        (Py.replace_space phone)
  | None => false
  end.

(** The rows the query keeps, in two-valued form. *)
Definition keep (e : Sql.LikeEscape) (Number Email : option string)
    (u : UsersRow) : bool :=
  Py.truthy Number
  && (phone_like e (default "" Number) (HomePhone u)
      || phone_like e (default "" Number) (WorkPhone u)
      || phone_like e (default "" Number) (MobilePhone u))
  || Py.truthy Email && bool_decide (EmailAddress u = Email).

Fixpoint no_space (s : string) : bool :=
  match s with
  | EmptyString => true
  | String c s' => negb (Ascii.eqb c " ") && no_space s'
  end.

(** A contact with at least one phone column that is not NULL. *)
Definition has_phone (u : UsersRow) : bool :=
  bool_decide (HomePhone u <> None)
  || bool_decide (WorkPhone u <> None)
  || bool_decide (MobilePhone u <> None).

(** The limiter lets the next request of [key] through. *)
Definition within_limit (w : World) (key : string) : Prop :=
  (hits w key < limit_amount)%nat.

(** Prefix and substring tests, for evaluation. *)
Fixpoint startswith (needle s : string) : bool :=
  match needle, s with
  | EmptyString, _ => true
  | String c needle', String x s' => Ascii.eqb x c && startswith needle' s'
  | String _ _, EmptyString => false
  end.

Fixpoint containsb (needle s : string) : bool :=
  startswith needle s
  || match s with
     | String _ s' => containsb needle s'
     | EmptyString => false
     end.

(** The phone predicate, for evaluation. *)
Definition col_contains (Number : string) (col : option string) : bool :=
  match col with
  | Some phone =>
      containsb (Py.replace_space Number) (Py.replace_space phone)
  | None => false
  end.

Definition phone_matchesb (Number : string) (u : UsersRow) : bool :=
  col_contains Number (HomePhone u)
  || col_contains Number (WorkPhone u)
  || col_contains Number (MobilePhone u).

(** The credentials are the configured pair. *)
Definition valid (API_KEY API_PASSWORD : string) (c : HTTPBasicCredentials)
    : Prop :=
  username c = API_KEY /\ password c = API_PASSWORD.

(** The world after more events, and after one more hit of [key]. *)
Definition logged (w : World) (events : list Event) : World :=
  {| storage := storage w; trace := trace w ++ events |}.

Definition counted (w : World) (key : string) : World :=
  {| storage := <[key := S (hits w key)]> (storage w); trace := trace w |}.

(** ** Sample values *)

Module Sample.

Definition w0 : World := {| storage := ∅; trace := [] |}.

(** The window of 10.0.0.1 already counts twenty hits. *)
Definition w20 : World :=
  {| storage := {["10.0.0.1" := 20%nat]}; trace := [] |}.

Definition user (id : Z) (name work email : option string) : UsersRow :=
  {| ID := id; RealName := name; WorkPhone := work; MobilePhone := None;
     HomePhone := None; EmailAddress := email; Organization := None |}.

Definition jane : UsersRow :=
  user 1 (Some "Jane Public") (Some "555 1234567") None.

Definition spaced : UsersRow :=
  user 2 (Some "Jane Q Public") (Some "555 123 4567") (Some "a@b.com").

Definition madonna : UsersRow := user 3 (Some "Madonna") None None.

Definition short : UsersRow := user 4 None (Some "55") None.

Definition mail_only : UsersRow := user 6 (Some "Bo") None (Some "bo@b.com").

Definition store (e : Sql.LikeEscape) (rows : list UsersRow) : Session :=
  {| like_escape := e; Users := rows; failure := None |}.

Definition down : Session :=
  {| like_escape := Sql.NoEscape; Users := [jane];
     failure := Some "connection refused" |}.

Definition request (secret : string) (Number Email : option string)
    : Request :=
  {| client_host := "10.0.0.1";
     credentials := {| username := "key"; password := secret |};
     query_Number := Number;
     query_Email := Email |}.

End Sample.

(** ** Tests of the conditions of the endpoint, for the decision table *)

Definition validb (API_KEY API_PASSWORD : string) (c : HTTPBasicCredentials)
    : bool :=
  String.eqb (username c) API_KEY && String.eqb (password c) API_PASSWORD.

Definition within_limitb (w : World) (key : string) : bool :=
  (hits w key <? limit_amount)%nat.

(** The status of the response of [GET /contacts], read off the order of
    the steps. *)
Definition expected_status (API_KEY API_PASSWORD : string) (db : Session)
    (request : Request) (w : World) : Z :=
  if negb (validb API_KEY API_PASSWORD (credentials request)) then 403
  else if negb (within_limitb w (client_host request)) then 429
  else if negb (Py.truthy (query_Number request))
          && negb (Py.truthy (query_Email request)) then 400
  else match failure db with
       | Some _ => 500
       | None =>
           match List.filter
                   (keep (like_escape db) (query_Number request)
                      (query_Email request)) (Users db) with
           | [] => 404
           | _ :: _ => 200
           end
       end.

(** The request reaches the query: the credentials are right, the limiter
    lets it through, and it has a Number or an Email. *)
Definition reaches_query (API_KEY API_PASSWORD : string) (request : Request)
    (w : World) : bool :=
  validb API_KEY API_PASSWORD (credentials request)
  && within_limitb w (client_host request)
  && (Py.truthy (query_Number request) || Py.truthy (query_Email request)).

(** More sample values. *)
Module Scenario.

Definition elsewhere (secret : string) (Number Email : option string)
    : Request :=
  {| client_host := "10.0.0.2";
     credentials := {| username := "key"; password := secret |};
     query_Number := Number;
     query_Email := Email |}.

Definition directory : Session :=
  Sample.store Sql.NoEscape
    [Sample.jane; Sample.spaced; Sample.madonna; Sample.mail_only].

End Scenario.

(** ** Strings *)

Lemma append_nil_l (s : string) : "" +:+ s = s.
Proof. reflexivity. Qed.

Lemma append_cons (c : ascii) (s t : string) :
  String c s +:+ t = String c (s +:+ t).
Proof. reflexivity. Qed.

Lemma startswith_spec (n s : string) :
  startswith n s = true <-> exists post, s = n +:+ post.
Proof.
  revert s. induction n as [|c n IH]; intros s; simpl.
  - split; [intros _; now exists s | reflexivity].
  - destruct s as [|x s].
    + split; [discriminate | intros [post H]; discriminate].
    + rewrite andb_true_iff, IH. split.
      * intros [Hx [post H]]. apply Ascii.eqb_eq in Hx. subst.
        now exists post.
      * intros [post H]. rewrite append_cons in H. injection H as -> ->.
        split; [apply Ascii.eqb_refl | now exists post].
Qed.

Lemma containsb_spec (n s : string) :
  containsb n s = true <-> contains s n.
Proof.
  induction s as [|x s IH]; simpl.
  - rewrite orb_false_r, startswith_spec. split.
    + intros [post H]. now exists "", post.
    + intros [[|y pre] [post H]]; [now exists post |].
      rewrite append_cons in H. discriminate.
  - rewrite orb_true_iff, startswith_spec, IH. split.
    + intros [[post H] | [pre [post H]]].
      * now exists "", post.
      * exists (String x pre), post. now rewrite append_cons, H.
    + intros [[|y pre] [post H]].
      * left. now exists post.
      * right. exists pre, post. rewrite append_cons in H. congruence.
Qed.

Lemma replace_space_no_space (s : string) :
  no_space (Py.replace_space s) = true.
Proof.
  induction s as [|c s IH]; simpl; [reflexivity |].
  destruct (Ascii.eqb c " ") eqn:Hc; [exact IH |].
  simpl. now rewrite Hc, IH.
Qed.

Lemma replace_space_all_spaces (s : string) :
  all_spaces s = true -> Py.replace_space s = "".
Proof.
  induction s as [|c s IH]; simpl; [reflexivity |].
  intros [Hc Hs]%andb_true_iff. rewrite Hc. auto.
Qed.

(** ** LIKE *)

Lemma like_percent_step (e : Sql.LikeEscape) (p s : string) :
  Sql.like e (String "%" p) s
  = Sql.like e p s
    || match s with
       | String _ s' => Sql.like e (String "%" p) s'
       | EmptyString => false
       end.
Proof. destruct e, s; reflexivity. Qed.

Lemma like_percent_any (e : Sql.LikeEscape) (s : string) :
  Sql.like e "%" s = true.
Proof.
  induction s as [|x s IH]; rewrite like_percent_step.
  - reflexivity.
  - rewrite IH. apply orb_true_r.
Qed.

Lemma like_percent_percent (e : Sql.LikeEscape) (s : string) :
  Sql.like e "%%" s = true.
Proof. rewrite like_percent_step, like_percent_any. reflexivity. Qed.

Lemma like_plain_char (e : Sql.LikeEscape) (c : ascii) (p s : string) :
  meta e c = false ->
  Sql.like e (String c p) s
  = match s with
    | String x s' => Ascii.eqb x c && Sql.like e p s'
    | EmptyString => false
    end.
Proof.
  unfold meta. intros H.
  apply orb_false_iff in H as [H Hu]. apply orb_false_iff in H as [He Hp].
  simpl. rewrite He, Hp, Hu. reflexivity.
Qed.

Lemma like_plain_prefix (e : Sql.LikeEscape) (n s : string) :
  plain e n = true -> Sql.like e (n +:+ "%") s = startswith n s.
Proof.
  revert s. induction n as [|c n IH]; intros s Hn.
  - apply like_percent_any.
  - simpl in Hn. apply andb_true_iff in Hn as [Hc Hn].
    apply negb_true_iff in Hc.
    rewrite append_cons, like_plain_char by assumption.
    destruct s as [|x s]; simpl; [reflexivity |].
    now rewrite IH.
Qed.

Lemma like_plain_contains (e : Sql.LikeEscape) (n s : string) :
  plain e n = true -> Sql.like e ("%" +:+ n +:+ "%") s = containsb n s.
Proof.
  intros Hn. rewrite append_cons, append_nil_l.
  induction s as [|x s IH]; rewrite like_percent_step; simpl containsb;
    rewrite like_plain_prefix by assumption.
  - reflexivity.
  - now rewrite IH.
Qed.

(** ** Three-valued logic *)

Lemma holds_or3 (a b : Sql.truth) :
  Sql.holds (Sql.or3 a b) = Sql.holds a || Sql.holds b.
Proof. destruct a as [[]|], b as [[]|]; reflexivity. Qed.

Lemma holds_and3 (a b : Sql.truth) :
  Sql.holds (Sql.and3 a b) = Sql.holds a && Sql.holds b.
Proof. destruct a as [[]|], b as [[]|]; reflexivity. Qed.

(** ** The bound values and the rows the query keeps *)

Section Lookup.

Ltac lookup_inserts :=
  repeat (rewrite lookup_insert_eq || rewrite lookup_insert_ne by done);
  reflexivity.

Lemma build_parameters_number (Number Email : option string) :
  build_parameters Number Email !! "number"
  = Some (if Py.truthy Number then Number else None).
Proof.
  unfold build_parameters.
  destruct (Py.truthy Number), (Py.truthy Email); lookup_inserts.
Qed.

Lemma build_parameters_like_pattern (Number Email : option string) :
  build_parameters Number Email !! "like_pattern"
  = Some (if Py.truthy Number
          then Some ("%" +:+ Py.replace_space (default "" Number) +:+ "%")
          else None).
Proof.
  unfold build_parameters.
  destruct (Py.truthy Number), (Py.truthy Email); lookup_inserts.
Qed.

Lemma build_parameters_email (Number Email : option string) :
  build_parameters Number Email !! "email"
  = Some (if Py.truthy Email then Email else None).
Proof.
  unfold build_parameters.
  destruct (Py.truthy Number), (Py.truthy Email); lookup_inserts.
Qed.

Lemma build_parameters_exact_email (Number Email : option string) :
  build_parameters Number Email !! "exact_email"
  = Some (if Py.truthy Email then Email else None).
Proof.
  unfold build_parameters.
  destruct (Py.truthy Number), (Py.truthy Email); lookup_inserts.
Qed.

Lemma like3_phone (e : Sql.LikeEscape) (Number : string)
    (col : option string) :
  Sql.holds
    (Sql.like3 e (Sql.replace_space col)
       (Some ("%" +:+ Py.replace_space Number +:+ "%")))
  = phone_like e Number col.
Proof.
  destruct col as [phone|]; [| reflexivity].
  unfold phone_like, Sql.like3, Sql.replace_space, Sql.holds.
  cbn [fmap option_fmap option_map].
  destruct (Sql.like _ _ _); reflexivity.
Qed.

Lemma eq3_email (col : option string) (Email : string) :
  Sql.holds (Sql.eq3 col (Some Email)) = bool_decide (col = Some Email).
Proof.
  destruct col as [x|]; simpl; [| reflexivity].
  destruct (String.eqb_spec x Email) as [->|Hne].
  - by rewrite bool_decide_eq_true_2.
  - rewrite bool_decide_eq_false_2; [reflexivity | congruence].
Qed.

(** The WHERE clause under the values that [build_parameters] binds. *)
Lemma where_clause_keep (e : Sql.LikeEscape) (Number Email : option string)
    (u : UsersRow) :
  Sql.holds
    (where_clause e
       (if Py.truthy Number then Number else None)
       (if Py.truthy Number
        then Some ("%" +:+ Py.replace_space (default "" Number) +:+ "%")
        else None)
       (if Py.truthy Email then Email else None)
       (if Py.truthy Email then Email else None) u)
  = keep e Number Email u.
Proof.
  unfold where_clause, keep.
  rewrite holds_or3, !holds_and3, !holds_or3. f_equal.
  - destruct Number as [[|c n]|]; simpl Py.truthy; cbv iota.
    + by destruct (HomePhone u), (WorkPhone u), (MobilePhone u).
    + rewrite !like3_phone. reflexivity.
    + by destruct (HomePhone u), (WorkPhone u), (MobilePhone u).
  - destruct Email as [[|c m]|]; simpl Py.truthy; cbv iota.
    + by destruct (EmailAddress u).
    + rewrite eq3_email. reflexivity.
    + by destruct (EmailAddress u).
Qed.

Lemma filter_ext_bool {A : Type} (f g : A -> bool) (l : list A) :
  (forall x, f x = g x) -> List.filter f l = List.filter g l.
Proof.
  intros H. induction l as [|x l IH]; simpl; [reflexivity |].
  rewrite H, IH. reflexivity.
Qed.

Lemma execute_build_parameters (db : Session)
    (Number Email : option string) :
  failure db = None ->
  execute db (build_parameters Number Email)
  = inr (select <$> List.filter (keep (like_escape db) Number Email)
                      (Users db)).
Proof.
  intros Hok. unfold execute. rewrite Hok.
  rewrite build_parameters_number, build_parameters_like_pattern,
    build_parameters_email, build_parameters_exact_email.
  do 2 f_equal. apply filter_ext_bool. intros u. apply where_clause_keep.
Qed.

End Lookup.

(** ** The phone predicate *)

Lemma col_contains_spec (Number : string) (col : option string) :
  col_contains Number col = true
  <-> exists phone, col = Some phone
      /\ contains (Py.replace_space phone) (Py.replace_space Number).
Proof.
  destruct col as [phone|]; simpl.
  - rewrite containsb_spec. split.
    + intros H. now exists phone.
    + intros [x [[= <-] H]]. exact H.
  - split; [discriminate | intros [x [[=] _]]].
Qed.

Lemma phone_matchesb_spec (Number : string) (u : UsersRow) :
  phone_matchesb Number u = true <-> phone_matches Number u.
Proof.
  unfold phone_matchesb, phone_matches.
  rewrite !orb_true_iff, !col_contains_spec. split.
  - intros [[[p [Hc H]] | [p [Hc H]]] | [p [Hc H]]].
    + exists (HomePhone u), p. rewrite !elem_of_cons. tauto.
    + exists (WorkPhone u), p. rewrite !elem_of_cons. tauto.
    + exists (MobilePhone u), p. rewrite !elem_of_cons. tauto.
  - intros (col & p & Hin & Hc & H).
    rewrite !elem_of_cons, elem_of_nil in Hin.
    destruct Hin as [-> | [-> | [-> | []]]]; eauto.
Qed.

Lemma phone_like_plain (e : Sql.LikeEscape) (Number : string)
    (col : option string) :
  plain e (Py.replace_space Number) = true ->
  phone_like e Number col = col_contains Number col.
Proof.
  intros Hn. destruct col as [phone|]; simpl; [| reflexivity].
  now apply like_plain_contains.
Qed.

Lemma truthy_Some (s : string) : s <> "" -> Py.truthy (Some s) = true.
Proof. destruct s; [congruence | reflexivity]. Qed.

Lemma keep_number (e : Sql.LikeEscape) (Number : string)
    (Email : option string) (u : UsersRow) :
  Number <> "" ->
  plain e (Py.replace_space Number) = true ->
  keep e (Some Number) Email u
  = phone_matchesb Number u
    || Py.truthy Email && bool_decide (EmailAddress u = Email).
Proof.
  intros Hne Hn. unfold keep, phone_matchesb.
  rewrite truthy_Some by assumption.
  change (default "" (Some Number)) with Number.
  now rewrite !phone_like_plain by assumption.
Qed.

Lemma keep_both (e : Sql.LikeEscape) (Number Email : string) (u : UsersRow) :
  Number <> "" -> Email <> "" ->
  keep e (Some Number) (Some Email) u
  = keep e (Some Number) None u || keep e None (Some Email) u.
Proof.
  intros HN HE. unfold keep.
  rewrite !truthy_Some by assumption.
  change (Py.truthy None) with false.
  cbn [andb orb]. now rewrite orb_false_r.
Qed.

Lemma keep_all_spaces (e : Sql.LikeEscape) (Number : string)
    (Email : option string) (u : UsersRow) :
  Number <> "" -> all_spaces Number = true -> Py.truthy Email = false ->
  keep e (Some Number) Email u = has_phone u.
Proof.
  intros Hne Hsp HE. unfold keep, has_phone, phone_like.
  rewrite HE, truthy_Some by assumption.
  change (default "" (Some Number)) with Number.
  rewrite (replace_space_all_spaces _ Hsp).
  change ("%" +:+ "" +:+ "%") with "%%".
  destruct (HomePhone u), (WorkPhone u), (MobilePhone u);
    rewrite ?like_percent_percent; reflexivity.
Qed.

(** ** Splitting and joining *)

Example split_keeps_empty_pieces :
  Py.split " " "Jane Q  Public" = ["Jane"; "Q"; ""; "Public"].
Proof. reflexivity. Qed.

Lemma split_no_space (t : string) :
  no_space t = true -> Py.split " " t = [t].
Proof.
  induction t as [|c t IH]; simpl; [reflexivity |].
  intros [Hc Ht]%andb_true_iff. apply negb_true_iff in Hc.
  rewrite Hc, IH by assumption. reflexivity.
Qed.

Lemma split_token_space (t rest : string) :
  no_space t = true ->
  Py.split " " (t +:+ " " +:+ rest) = t :: Py.split " " rest.
Proof.
  induction t as [|c t IH]; intros Ht.
  - reflexivity.
  - simpl in Ht. apply andb_true_iff in Ht as [Hc Ht].
    apply negb_true_iff in Hc.
    rewrite append_cons. simpl. rewrite Hc, IH by assumption. reflexivity.
Qed.

Lemma split_join (t : string) (ts : list string) :
  no_space t = true -> Forall (fun x => no_space x = true) ts ->
  Py.split " " (Py.join " " (t :: ts)) = t :: ts.
Proof.
  intros Ht Hts. revert t Ht.
  induction Hts as [|t' ts Ht' Hts IH]; intros t Ht.
  - now apply split_no_space.
  - change (Py.join " " (t :: t' :: ts))
      with (t +:+ " " +:+ Py.join " " (t' :: ts)).
    rewrite split_token_space by assumption.
    now rewrite IH.
Qed.

Lemma or_empty_default (o : option string) : Py.or_empty o = default "" o.
Proof. by destruct o as [[|c s]|]. Qed.

(** ** Formatting *)

(** C4. The formatter cuts the display name at single spaces: for a name
    made of the tokens [t :: ts] joined by single spaces, firstname is [t]
    and lastname is [ts] joined by single spaces; a single token gives an
    empty lastname; a null or empty name gives two empty strings; "Jane Q
    Public" gives "Jane" and "Q Public", "Madonna" gives "Madonna" and "". *)
Theorem C4_name_split (contact : Row.t) (t : string) (ts : list string) :
  no_space t = true ->
  Forall (fun x => no_space x = true) ts ->
  Row.firstname contact = Some (Py.join " " (t :: ts)) ->
  Contact.firstname (contact_data contact) = t
  /\ Contact.lastname (contact_data contact) = Py.join " " ts
  /\ (ts = [] -> Contact.lastname (contact_data contact) = "")
  /\ (forall c : Row.t,
        Row.firstname c = None \/ Row.firstname c = Some "" ->
        Contact.firstname (contact_data c) = ""
        /\ Contact.lastname (contact_data c) = "")
  /\ (let c := contact_data (select Sample.spaced) in
      Contact.firstname c = "Jane" /\ Contact.lastname c = "Q Public")
  /\ (let c := contact_data (select Sample.madonna) in
      Contact.firstname c = "Madonna" /\ Contact.lastname c = "").
Proof.
  intros Ht Hts Hname.
  assert (Hsplit : Py.split " " (Py.or_empty (Row.firstname contact)) = t :: ts).
  { rewrite Hname, or_empty_default. simpl default. now apply split_join. }
  assert (Hlast : Contact.lastname (contact_data contact) = Py.join " " ts).
  { unfold contact_data. cbn [Contact.lastname]. rewrite Hsplit.
    destruct ts as [|t' ts']; reflexivity. }
  split; [| split; [exact Hlast | split; [| split; [| split]]]].
  - unfold contact_data. cbn [Contact.firstname]. now rewrite Hsplit.
  - intros ->. exact Hlast.
  - intros c [Hc | Hc]; unfold contact_data;
      cbn [Contact.firstname Contact.lastname]; rewrite Hc; split; reflexivity.
  - split; reflexivity.
  - split; reflexivity.
Qed.

Lemma C4_name_split_witness :
  let contact := select (Sample.user 5 (Some "Ada King Lovelace") None None) in
  Contact.firstname (contact_data contact) = "Ada"
  /\ Contact.lastname (contact_data contact) = "King Lovelace".
Proof.
  intros contact.
  destruct (C4_name_split contact "Ada" ["King"; "Lovelace"])
    as (Hfirst & Hlast & _).
  - reflexivity.
  - repeat constructor.
  - reflexivity.
  - split; [exact Hfirst | exact Hlast].
Defined.

(** C5. In every entry of the response, company and the three phone
    fields hold the value of the row, or the empty string when that value
    is null (or empty); email holds the value of the row as it is, so a
    null email stays null. *)
Theorem C5_field_defaults (contact : Row.t) :
  Contact.company (contact_data contact) = default "" (Row.company contact)
  /\ Contact.phonebusiness (contact_data contact)
     = default "" (Row.PhoneBusiness contact)
  /\ Contact.phonemobile (contact_data contact)
     = default "" (Row.PhoneMobile contact)
  /\ Contact.phonehome (contact_data contact)
     = default "" (Row.PhoneHome contact)
  /\ Contact.email (contact_data contact) = Row.Email contact
  /\ contact_data (select Sample.jane)
     = {| Contact.contactid := 1;
          Contact.firstname := "Jane";
          Contact.lastname := "Public";
          Contact.company := "";
          Contact.email := None;
          Contact.phonebusiness := "555 1234567";
          Contact.phonemobile := "";
          Contact.phonehome := "" |}.
Proof.
  unfold contact_data. cbn [Contact.company Contact.phonebusiness
    Contact.phonemobile Contact.phonehome Contact.email].
  rewrite !or_empty_default. repeat split.
Qed.

(** ** The steps of the endpoint *)

Section Endpoint.

Variables (API_KEY API_PASSWORD : string).

Lemma auth_valid (c : HTTPBasicCredentials) (w : World) :
  valid API_KEY API_PASSWORD c ->
  get_current_credentials API_KEY API_PASSWORD c w = (inr (username c), w).
Proof.
  intros [Hu Hp]. unfold get_current_credentials, Py.compare_digest.
  rewrite Hu, Hp, !String.eqb_refl. reflexivity.
Qed.

Lemma auth_invalid (c : HTTPBasicCredentials) (w : World) :
  ~ valid API_KEY API_PASSWORD c ->
  get_current_credentials API_KEY API_PASSWORD c w
  = (inl {| status_code := 403;
            detail := "Could not validate credentials" |},
     logged w [Log WARNING "Invalid API Key or Password"]).
Proof.
  intros H. unfold get_current_credentials, Py.compare_digest.
  destruct (String.eqb_spec (username c) API_KEY);
    destruct (String.eqb_spec (password c) API_PASSWORD);
    try reflexivity.
  exfalso. apply H. split; assumption.
Qed.

Lemma limit_within {A : Type} (request : Request) (f : M A) (w : World) :
  within_limit w (client_host request) ->
  limit request f w = f (counted w (client_host request)).
Proof.
  unfold within_limit, limit, limiter_hit, mbind, M_bind. intros H.
  destruct (Nat.leb_spec (S (hits w (client_host request))) limit_amount);
    [reflexivity | lia].
Qed.

Lemma limit_exceeded {A : Type} (request : Request) (f : M A) (w : World) :
  exceeded w (client_host request) ->
  limit request f w
  = (inl {| status_code := 429; detail := "20 per 1 minute" |},
     counted w (client_host request)).
Proof.
  unfold exceeded, limit, limiter_hit, mbind, M_bind. intros H.
  destruct (Nat.leb_spec (S (hits w (client_host request))) limit_amount);
    [lia | reflexivity].
Qed.

Lemma get_contacts_valid (db : Session) (request : Request) (w : World) :
  valid API_KEY API_PASSWORD (credentials request) ->
  get_contacts API_KEY API_PASSWORD db request w
  = limit request
      (lookup_contact db (query_Number request) (query_Email request)) w.
Proof.
  intros H. unfold get_contacts, mbind, M_bind at 1.
  rewrite auth_valid by assumption. reflexivity.
Qed.

Lemma get_contacts_invalid (db : Session) (request : Request) (w : World) :
  ~ valid API_KEY API_PASSWORD (credentials request) ->
  get_contacts API_KEY API_PASSWORD db request w
  = (inl {| status_code := 403;
            detail := "Could not validate credentials" |},
     logged w [Log WARNING "Invalid API Key or Password"]).
Proof.
  intros H. unfold get_contacts, mbind, M_bind at 1.
  rewrite auth_invalid by assumption. reflexivity.
Qed.

Lemma lookup_contact_missing (db : Session) (Number Email : option string)
    (w : World) :
  Py.truthy Number = false -> Py.truthy Email = false ->
  lookup_contact db Number Email w
  = (inl {| status_code := 400;
            detail := "Either Number or Email must be provided" |}, w).
Proof. intros HN HE. unfold lookup_contact. rewrite HN, HE. reflexivity. Qed.

Lemma lookup_contact_run (db : Session) (Number Email : option string)
    (w : World) :
  Py.truthy Number || Py.truthy Email = true ->
  lookup_contact db Number Email w
  = match execute db (build_parameters Number Email) with
    | inl exn =>
        (inl {| status_code := 500; detail := "Database error occurred." |},
         logged w [Execute (build_parameters Number Email);
                   Log ERROR ("Database error: " +:+ exn)])
    | inr [] =>
        (inl {| status_code := 404; detail := "Contact not found" |},
         logged w [Execute (build_parameters Number Email)])
    | inr (r :: rs) =>
        (inr {| contacts := contact_data <$> (r :: rs) |},
         logged w [Execute (build_parameters Number Email)])
    end.
Proof.
  intros H. unfold lookup_contact.
  replace (negb (Py.truthy Number) && negb (Py.truthy Email)) with false
    by (destruct (Py.truthy Number), (Py.truthy Email); done).
  unfold run_query, mbind, M_bind, emit, raise, mret, M_ret, logged.
  destruct (execute db (build_parameters Number Email)) as [exn|[|r rs]];
    cbn [storage trace]; rewrite <- ?app_assoc; reflexivity.
Qed.

Lemma lookup_contact_storage (db : Session) (Number Email : option string)
    (w : World) :
  storage (snd (lookup_contact db Number Email w)) = storage w.
Proof.
  destruct (Py.truthy Number || Py.truthy Email) eqn:Hq.
  - rewrite lookup_contact_run by assumption.
    destruct (execute db (build_parameters Number Email)) as [exn|[|r rs]];
      reflexivity.
  - apply orb_false_iff in Hq as [HN HE].
    now rewrite lookup_contact_missing.
Qed.

Lemma hits_counted (w : World) (key : string) :
  hits (counted w key) key = S (hits w key).
Proof. unfold hits at 1, counted. cbn [storage]. now rewrite lookup_insert_eq. Qed.

(** A request with valid credentials counts as one hit, whatever its
    outcome. *)
Lemma get_contacts_valid_hits (db : Session) (request : Request) (w : World) :
  valid API_KEY API_PASSWORD (credentials request) ->
  hits (snd (get_contacts API_KEY API_PASSWORD db request w))
    (client_host request)
  = S (hits w (client_host request)).
Proof.
  intros Hc. rewrite get_contacts_valid by assumption.
  destruct (Nat.lt_ge_cases (hits w (client_host request)) limit_amount)
    as [Hin | Hover].
  - rewrite limit_within by assumption.
    unfold hits at 1. rewrite lookup_contact_storage. apply hits_counted.
  - rewrite limit_exceeded by assumption. apply hits_counted.
Qed.

(** After requests with valid credentials from one address, the window of
    the address counts them all. *)
Lemma hits_serve_valid (db : Session) (key : string)
    (requests : list Request) (w : World) :
  Forall (fun request =>
            valid API_KEY API_PASSWORD (credentials request)
            /\ client_host request = key) requests ->
  hits (serve API_KEY API_PASSWORD db requests w) key
  = (hits w key + List.length requests)%nat.
Proof.
  intros H. revert w. induction H as [|request requests [Hc Hk] _ IH];
    intros w; simpl.
  - lia.
  - rewrite IH. subst key. rewrite get_contacts_valid_hits by assumption. lia.
Qed.

End Endpoint.

Lemma executed_app (t1 t2 : list Event) :
  executed (t1 ++ t2) = executed t1 ++ executed t2.
Proof.
  induction t1 as [|[lvl msg|p] t1 IH]; simpl; [reflexivity | exact IH |].
  now rewrite IH.
Qed.

(** ** The lookup *)

(** C1. For a request with a Number that is not empty and that, once its
    spaces are stripped, holds none of the characters that LIKE reads as
    more than themselves (the percent sign, the underscore, the escape
    character of the store), the query is run with the pattern made of the
    stripped Number between two percent signs, and it returns a contact
    exactly when one of its three phone columns, its spaces stripped,
    contains the stripped Number, or when an Email that is not empty came
    with the request and is the email of the contact; a stored phone
    "555 123 4567" is matched by 5551234567 and by 555 1234567. *)
Theorem C1_phone_lookup (db : Session) (Number : string)
    (Email : option string) :
  failure db = None ->
  Number <> "" ->
  plain (like_escape db) (Py.replace_space Number) = true ->
  exists kept : UsersRow -> bool,
    no_space (Py.replace_space Number) = true
    /\ build_parameters (Some Number) Email !! "like_pattern"
       = Some (Some ("%" +:+ Py.replace_space Number +:+ "%"))
    /\ execute db (build_parameters (Some Number) Email)
       = inr (select <$> List.filter kept (Users db))
    /\ (forall u,
          kept u = true
          <-> phone_matches Number u
              \/ (Py.truthy Email = true /\ EmailAddress u = Email))
    /\ (forall e,
          execute (Sample.store e [Sample.spaced])
            (build_parameters (Some "5551234567") None)
          = inr [select Sample.spaced]
          /\ execute (Sample.store e [Sample.spaced])
               (build_parameters (Some "555 1234567") None)
             = inr [select Sample.spaced]).
Proof.
  intros Hok Hne Hplain.
  exists (fun u => phone_matchesb Number u
                   || Py.truthy Email && bool_decide (EmailAddress u = Email)).
  split; [apply replace_space_no_space | split; [| split; [| split]]].
  - rewrite build_parameters_like_pattern, truthy_Some by assumption.
    reflexivity.
  - rewrite execute_build_parameters by assumption. do 2 f_equal.
    apply filter_ext_bool. intros u. now apply keep_number.
  - intros u.
    rewrite orb_true_iff, andb_true_iff, phone_matchesb_spec,
      bool_decide_eq_true.
    reflexivity.
  - intros e. destruct e; split; vm_compute; reflexivity.
Qed.

Lemma C1_phone_lookup_witness :
  exists kept : UsersRow -> bool,
    execute (Sample.store Sql.Backslash [Sample.jane; Sample.madonna])
      (build_parameters (Some "123 45") None)
    = inr (select <$> List.filter kept [Sample.jane; Sample.madonna])
    /\ (forall u,
          kept u = true
          <-> phone_matches "123 45" u
              \/ (Py.truthy None = true /\ EmailAddress u = None)).
Proof.
  destruct (C1_phone_lookup
              (Sample.store Sql.Backslash [Sample.jane; Sample.madonna])
              "123 45" None)
    as (kept & _ & _ & Hrun & Hkept & _).
  - reflexivity.
  - discriminate.
  - reflexivity.
  - exists kept. split; [exact Hrun | exact Hkept].
Defined.

(** C1 as it is stated fails on a Number with a wildcard: 5_5 is kept for
    the stored phone "555 123 4567", which does not contain it, whatever
    the escape character of the store. It fails as well on a store whose
    LIKE escapes with the backslash, where 5\5 is kept for the stored
    phone "55", and on a request that has an Email too, where the contact
    with that email is kept though no phone of it contains the Number. *)
Lemma C1_wildcard_counterexample :
  execute (Sample.store Sql.NoEscape [Sample.spaced])
    (build_parameters (Some "5_5") None)
  = inr [select Sample.spaced]
  /\ execute (Sample.store Sql.Backslash [Sample.spaced])
       (build_parameters (Some "5_5") None)
     = inr [select Sample.spaced]
  /\ ~ phone_matches "5_5" Sample.spaced
  /\ execute (Sample.store Sql.Backslash [Sample.short])
       (build_parameters (Some "5\5") None)
     = inr [select Sample.short]
  /\ ~ phone_matches "5\5" Sample.short
  /\ execute (Sample.store Sql.NoEscape [Sample.spaced])
       (build_parameters (Some "999") (Some "a@b.com"))
     = inr [select Sample.spaced]
  /\ ~ phone_matches "999" Sample.spaced.
Proof.
  split; [| split; [| split; [| split; [| split; [| split]]]]].
  - vm_compute. reflexivity.
  - vm_compute. reflexivity.
  - rewrite <- phone_matchesb_spec. vm_compute. discriminate.
  - vm_compute. reflexivity.
  - rewrite <- phone_matchesb_spec. vm_compute. discriminate.
  - vm_compute. reflexivity.
  - rewrite <- phone_matchesb_spec. vm_compute. discriminate.
Qed.

(** C3. For a request with a Number and an Email, both not empty, whose
    Number, once its spaces are stripped, holds none of the characters
    that LIKE reads as more than themselves (the percent sign, the
    underscore, the escape character of the store), the query returns
    exactly the contacts that satisfy the phone predicate or the email
    predicate: a contact that matches on its phone alone, or on its email
    alone, is in the result. *)
Theorem C3_either_predicate (db : Session) (Number Email : string) :
  failure db = None ->
  Number <> "" ->
  Email <> "" ->
  plain (like_escape db) (Py.replace_space Number) = true ->
  exists kept : UsersRow -> bool,
    execute db (build_parameters (Some Number) (Some Email))
    = inr (select <$> List.filter kept (Users db))
    /\ (forall u,
          kept u = true <-> phone_matches Number u \/ email_matches Email u)
    /\ (forall u, phone_matches Number u -> kept u = true)
    /\ (forall u, email_matches Email u -> kept u = true)
    /\ (forall e,
          execute (Sample.store e [Sample.jane; Sample.madonna; Sample.mail_only])
            (build_parameters (Some "5551234567") (Some "bo@b.com"))
          = inr [select Sample.jane; select Sample.mail_only]).
Proof.
  intros Hok HN HE Hplain.
  exists (fun u => phone_matchesb Number u
                   || bool_decide (EmailAddress u = Some Email)).
  assert (Hiff : forall u,
             phone_matchesb Number u
             || bool_decide (EmailAddress u = Some Email) = true
             <-> phone_matches Number u \/ email_matches Email u).
  { intros u. rewrite orb_true_iff, phone_matchesb_spec, bool_decide_eq_true.
    reflexivity. }
  split; [| split; [exact Hiff | split; [| split]]].
  - rewrite execute_build_parameters by assumption. do 2 f_equal.
    apply filter_ext_bool. intros u.
    rewrite keep_number by assumption.
    now rewrite truthy_Some by assumption.
  - intros u H. apply Hiff. now left.
  - intros u H. apply Hiff. now right.
  - intros e. destruct e; vm_compute; reflexivity.
Qed.

Lemma C3_either_predicate_witness :
  let db := Sample.store Sql.NoEscape
              [Sample.spaced; Sample.mail_only; Sample.madonna] in
  exists kept : UsersRow -> bool,
    execute db (build_parameters (Some "4567") (Some "bo@b.com"))
    = inr (select <$> List.filter kept (Users db))
    /\ (forall u,
          kept u = true
          <-> phone_matches "4567" u \/ email_matches "bo@b.com" u).
Proof.
  intros db.
  destruct (C3_either_predicate db "4567" "bo@b.com")
    as (kept & Hrun & Hkept & _).
  - reflexivity.
  - discriminate.
  - discriminate.
  - reflexivity.
  - exists kept. split; [exact Hrun | exact Hkept].
Defined.

(** C3 as it is stated fails on a Number with a wildcard: for Number 5_5
    and Email x@y the contact with the phone "555 123 4567" and the email
    "a@b.com" is returned, and it satisfies neither the phone predicate
    nor the email predicate. *)
Lemma C3_wildcard_counterexample :
  execute (Sample.store Sql.NoEscape [Sample.spaced])
    (build_parameters (Some "5_5") (Some "x@y"))
  = inr [select Sample.spaced]
  /\ ~ phone_matches "5_5" Sample.spaced
  /\ ~ email_matches "x@y" Sample.spaced.
Proof.
  split; [| split].
  - vm_compute. reflexivity.
  - rewrite <- phone_matchesb_spec. vm_compute. discriminate.
  - unfold email_matches. vm_compute. discriminate.
Qed.

(** C9. For a request with an Email that is not empty, the Email is bound
    as it is and compared with the email column for equality: the query
    returns a contact exactly when its email column equals the Email, or
    when the lookup by the Number of the request alone returns it; with
    no Number it returns exactly the contacts whose email column equals
    the Email. A stored "a@b.com" is found by a@b.com and not by
    a@b.co. *)
Theorem C9_email_exact (db : Session) (Number : option string)
    (Email : string) :
  failure db = None ->
  Email <> "" ->
  exists kept phone : UsersRow -> bool,
    build_parameters Number (Some Email) !! "exact_email" = Some (Some Email)
    /\ execute db (build_parameters Number (Some Email))
       = inr (select <$> List.filter kept (Users db))
    /\ execute db (build_parameters Number None)
       = inr (select <$> List.filter phone (Users db))
    /\ (forall u, kept u = true <-> email_matches Email u \/ phone u = true)
    /\ (Py.truthy Number = false ->
        forall u, kept u = true <-> email_matches Email u)
    /\ (forall e,
          execute (Sample.store e [Sample.spaced])
            (build_parameters None (Some "a@b.co")) = inr []
          /\ execute (Sample.store e [Sample.spaced])
               (build_parameters None (Some "a@b.com"))
             = inr [select Sample.spaced]).
Proof.
  intros Hok HE.
  exists (keep (like_escape db) Number (Some Email)),
         (keep (like_escape db) Number None).
  assert (Hkeep : forall u,
             keep (like_escape db) Number (Some Email) u = true
             <-> email_matches Email u
                 \/ keep (like_escape db) Number None u = true).
  { intros u. unfold keep, email_matches.
    rewrite truthy_Some by assumption.
    change (Py.truthy None) with false. cbn [andb].
    rewrite orb_false_r, orb_true_iff, bool_decide_eq_true. tauto. }
  split; [| split; [| split; [| split; [exact Hkeep | split]]]].
  - rewrite build_parameters_exact_email, truthy_Some by assumption.
    reflexivity.
  - now apply execute_build_parameters.
  - now apply execute_build_parameters.
  - intros HN u. rewrite Hkeep. unfold keep at 1. rewrite HN.
    cbn [andb orb]. split; [intros [H | H]; [exact H | discriminate] | tauto].
  - intros e. destruct e; split; vm_compute; reflexivity.
Qed.

Lemma C9_email_exact_witness :
  let db := Sample.store Sql.NoEscape [Sample.spaced; Sample.mail_only] in
  exists kept phone : UsersRow -> bool,
    execute db (build_parameters (Some "555") (Some "bo@b.com"))
    = inr (select <$> List.filter kept (Users db))
    /\ execute db (build_parameters (Some "555") None)
       = inr (select <$> List.filter phone (Users db))
    /\ (forall u,
          kept u = true <-> email_matches "bo@b.com" u \/ phone u = true).
Proof.
  intros db.
  destruct (C9_email_exact db (Some "555") "bo@b.com")
    as (kept & phone & _ & Hrun & Hphone & Hkept & _).
  - reflexivity.
  - discriminate.
  - exists kept, phone.
    split; [exact Hrun | split; [exact Hphone | exact Hkept]].
Defined.

(** C9 as it is stated fails on a request that has a Number too: for
    Number 555 and Email zz@zz the contact with the phone "555 123 4567"
    is returned, and its email, "a@b.com", is not the Email. *)
Lemma C9_number_counterexample :
  execute (Sample.store Sql.NoEscape [Sample.spaced])
    (build_parameters (Some "555") (Some "zz@zz"))
  = inr [select Sample.spaced]
  /\ ~ email_matches "zz@zz" Sample.spaced.
Proof.
  split.
  - vm_compute. reflexivity.
  - unfold email_matches. vm_compute. discriminate.
Qed.

(** ** The endpoint *)

(** C7. Credentials that differ from the configured pair, in the
    identifier, in the secret or in both, are refused with status 403 and
    the one detail "Could not validate credentials", with the one warning
    in the log, whichever field is wrong; no such request is let through,
    and credentials that match in both fields are. *)
Theorem C7_credentials (API_KEY API_PASSWORD : string)
    (c : HTTPBasicCredentials) (w : World) :
  username c <> API_KEY \/ password c <> API_PASSWORD ->
  get_current_credentials API_KEY API_PASSWORD c w
  = (inl {| status_code := 403; detail := "Could not validate credentials" |},
     logged w [Log WARNING "Invalid API Key or Password"])
  /\ (forall x, fst (get_current_credentials API_KEY API_PASSWORD c w) <> inr x)
  /\ (forall c' : HTTPBasicCredentials,
        valid API_KEY API_PASSWORD c' ->
        get_current_credentials API_KEY API_PASSWORD c' w
        = (inr (username c'), w)).
Proof.
  intros Hbad.
  assert (Hfail : ~ valid API_KEY API_PASSWORD c).
  { intros [Hu Hp]. destruct Hbad; contradiction. }
  rewrite (auth_invalid _ _ _ _ Hfail).
  split; [reflexivity | split].
  - intros x. discriminate.
  - intros c'. apply auth_valid.
Qed.

Lemma C7_credentials_witness :
  get_current_credentials "key" "secret"
    {| username := "key"; password := "Secret" |} Sample.w0
  = (inl {| status_code := 403; detail := "Could not validate credentials" |},
     logged Sample.w0 [Log WARNING "Invalid API Key or Password"])
  /\ get_current_credentials "key" "secret"
       {| username := "kex"; password := "secret" |} Sample.w0
     = (inl {| status_code := 403; detail := "Could not validate credentials" |},
        logged Sample.w0 [Log WARNING "Invalid API Key or Password"]).
Proof.
  split.
  - apply (C7_credentials "key" "secret"
             {| username := "key"; password := "Secret" |} Sample.w0).
    right. discriminate.
  - apply (C7_credentials "key" "secret"
             {| username := "kex"; password := "secret" |} Sample.w0).
    left. discriminate.
Defined.

(** C2. The code at the input where it departs from the claim: after
    twenty requests with valid credentials from one address, which exceed
    the threshold, a request from that address with a wrong secret is
    answered 403 and not 429, while one with the right secret is answered
    429; and of twenty-five requests with a wrong secret from one address
    none is counted, so the address never exceeds the threshold and the
    twenty-sixth is answered 403 as well. *)
Theorem C2_wrong_secret_not_limited :
  let db := Sample.store Sql.NoEscape [Sample.jane] in
  let good := Sample.request "secret" (Some "555") None in
  let bad := Sample.request "wrong" (Some "555") None in
  let w := serve "key" "secret" db (replicate 20 good) Sample.w0 in
  let w' := serve "key" "secret" db (replicate 25 bad) Sample.w0 in
  exceeded w (client_host bad)
  /\ status_of (fst (get_contacts "key" "secret" db bad w)) = 403
  /\ status_of (fst (get_contacts "key" "secret" db good w)) = 429
  /\ hits w' (client_host bad) = 0%nat
  /\ status_of (fst (get_contacts "key" "secret" db bad w')) = 403.
Proof.
  intros db good bad w w'. split; [| split; [| split; [| split]]].
  - unfold exceeded, w.
    rewrite (hits_serve_valid "key" "secret" db "10.0.0.1").
    + vm_compute. lia.
    + apply Forall_forall. intros request Hin.
      apply elem_of_replicate in Hin as [-> _].
      repeat split.
  - vm_compute. reflexivity.
  - vm_compute. reflexivity.
  - vm_compute. reflexivity.
  - vm_compute. reflexivity.
Qed.

(** C6. For a request with valid credentials that the limiter lets
    through, with Number and Email both absent or empty, the response is
    400 and nothing is added to the trace: no query is executed. *)
Theorem C6_missing_parameters (API_KEY API_PASSWORD : string)
    (db : Session) (request : Request) (w : World) :
  valid API_KEY API_PASSWORD (credentials request) ->
  within_limit w (client_host request) ->
  Py.truthy (query_Number request) = false ->
  Py.truthy (query_Email request) = false ->
  let r := get_contacts API_KEY API_PASSWORD db request w in
  fst r = inl {| status_code := 400;
                 detail := "Either Number or Email must be provided" |}
  /\ trace (snd r) = trace w
  /\ executed (trace (snd r)) = executed (trace w).
Proof.
  intros Hc Hlim HN HE r. subst r.
  rewrite get_contacts_valid, limit_within, lookup_contact_missing
    by assumption.
  repeat split.
Qed.

Lemma C6_missing_parameters_witness :
  let r := get_contacts "key" "secret"
             (Sample.store Sql.NoEscape [Sample.jane])
             (Sample.request "secret" (Some "") None) Sample.w0 in
  fst r = inl {| status_code := 400;
                 detail := "Either Number or Email must be provided" |}
  /\ trace (snd r) = trace Sample.w0
  /\ executed (trace (snd r)) = executed (trace Sample.w0).
Proof.
  apply (C6_missing_parameters "key" "secret"
           (Sample.store Sql.NoEscape [Sample.jane])
           (Sample.request "secret" (Some "") None) Sample.w0).
  - split; reflexivity.
  - unfold within_limit. vm_compute. lia.
  - reflexivity.
  - reflexivity.
Defined.

(** C8. For a request with valid credentials that the limiter lets
    through and that has a Number or an Email: when the query returns no
    row the response is 404; when the execution of the query raises, the
    response is 500 with the detail "Database error occurred." and the
    cause goes to the log as an error; either way the query was executed
    once. *)
Theorem C8_not_found_and_database_error (API_KEY API_PASSWORD : string)
    (db : Session) (request : Request) (w : World) :
  valid API_KEY API_PASSWORD (credentials request) ->
  within_limit w (client_host request) ->
  Py.truthy (query_Number request) || Py.truthy (query_Email request) = true ->
  let parameters :=
    build_parameters (query_Number request) (query_Email request) in
  let r := get_contacts API_KEY API_PASSWORD db request w in
  (execute db parameters = inr [] ->
   fst r = inl {| status_code := 404; detail := "Contact not found" |}
   /\ trace (snd r) = trace w ++ [Execute parameters])
  /\ (forall exn : string,
        execute db parameters = inl exn ->
        fst r = inl {| status_code := 500;
                       detail := "Database error occurred." |}
        /\ trace (snd r)
           = trace w ++ [Execute parameters;
                         Log ERROR ("Database error: " +:+ exn)]).
Proof.
  intros Hc Hlim Hq parameters r. subst parameters r.
  rewrite get_contacts_valid, limit_within, lookup_contact_run by assumption.
  split.
  - intros ->. split; reflexivity.
  - intros exn ->. split; reflexivity.
Qed.

Lemma C8_not_found_and_database_error_witness :
  let request := Sample.request "secret" (Some "555") None in
  let parameters := build_parameters (Some "555") None in
  fst (get_contacts "key" "secret" Sample.down request Sample.w0)
  = inl {| status_code := 500; detail := "Database error occurred." |}
  /\ trace (snd (get_contacts "key" "secret" Sample.down request Sample.w0))
     = [Execute parameters;
        Log ERROR "Database error: connection refused"].
Proof.
  intros request parameters.
  apply (C8_not_found_and_database_error "key" "secret" Sample.down
           request Sample.w0).
  - split; reflexivity.
  - unfold within_limit. vm_compute. lia.
  - reflexivity.
  - reflexivity.
Defined.

(** C10. For a request with valid credentials that the limiter lets
    through, whose Number is not empty and made of spaces only, with no
    Email, on a store that answers: the pattern bound is "%%", the query
    returns the contacts with a phone column that is not NULL, the query
    is executed, and the response is not 400 (it is 404 when no contact
    has a phone, 200 otherwise). *)
Theorem C10_spaces_only_number (API_KEY API_PASSWORD : string)
    (db : Session) (request : Request) (w : World) (Number : string) :
  valid API_KEY API_PASSWORD (credentials request) ->
  within_limit w (client_host request) ->
  failure db = None ->
  query_Number request = Some Number ->
  Number <> "" ->
  all_spaces Number = true ->
  Py.truthy (query_Email request) = false ->
  let parameters := build_parameters (Some Number) (query_Email request) in
  let r := get_contacts API_KEY API_PASSWORD db request w in
  parameters !! "like_pattern" = Some (Some "%%")
  /\ parameters !! "number" = Some (Some Number)
  /\ execute db parameters
     = inr (select <$> List.filter has_phone (Users db))
  /\ executed (trace (snd r)) = executed (trace w) ++ [parameters]
  /\ status_of (fst r) <> 400
  /\ status_of (fst r)
     = if bool_decide (List.filter has_phone (Users db) = []) then 404
       else 200.
Proof.
  intros Hc Hlim Hok HNum Hne Hsp HE parameters r.
  assert (Hrun : execute db parameters
                 = inr (select <$> List.filter has_phone (Users db))).
  { unfold parameters. rewrite execute_build_parameters by assumption.
    do 2 f_equal. apply filter_ext_bool. intros u.
    now apply keep_all_spaces. }
  assert (Hr : r = match select <$> List.filter has_phone (Users db) with
                   | [] =>
                       (inl {| status_code := 404;
                               detail := "Contact not found" |},
                        logged (counted w (client_host request))
                          [Execute parameters])
                   | x :: xs =>
                       (inr {| contacts := contact_data <$> (x :: xs) |},
                        logged (counted w (client_host request))
                          [Execute parameters])
                   end).
  { unfold r. rewrite get_contacts_valid, limit_within by assumption.
    rewrite lookup_contact_run
      by (rewrite HNum, truthy_Some by assumption; reflexivity).
    rewrite HNum. fold parameters. rewrite Hrun. reflexivity. }
  split; [| split; [| split; [exact Hrun |]]].
  - unfold parameters.
    rewrite build_parameters_like_pattern, truthy_Some by assumption.
    change (default "" (Some Number)) with Number.
    now rewrite (replace_space_all_spaces _ Hsp).
  - unfold parameters.
    now rewrite build_parameters_number, truthy_Some by assumption.
  - rewrite Hr.
    destruct (List.filter has_phone (Users db)) as [|u us];
      cbn [fmap list_fmap]; cbn [fst snd status_of logged counted trace];
      rewrite ?executed_app; repeat split; discriminate.
Qed.

Lemma C10_spaces_only_number_witness :
  let db := Sample.store Sql.Backslash [Sample.jane; Sample.madonna] in
  let request := Sample.request "secret" (Some "  ") None in
  execute db (build_parameters (Some "  ") None) = inr [select Sample.jane]
  /\ status_of (fst (get_contacts "key" "secret" db request Sample.w0)) = 200.
Proof.
  intros db request.
  destruct (C10_spaces_only_number "key" "secret" db request Sample.w0 "  ")
    as (_ & _ & Hrun & _ & _ & Hstatus).
  - split; reflexivity.
  - unfold within_limit. vm_compute. lia.
  - reflexivity.
  - reflexivity.
  - discriminate.
  - reflexivity.
  - reflexivity.
  - split; [exact Hrun | exact Hstatus].
Defined.

(** ** Further properties of the endpoint *)

Section Table.

Variables (API_KEY API_PASSWORD : string).

Lemma validb_spec (c : HTTPBasicCredentials) :
  validb API_KEY API_PASSWORD c = true <-> valid API_KEY API_PASSWORD c.
Proof.
  unfold validb, valid. now rewrite andb_true_iff, !String.eqb_eq.
Qed.

Lemma validb_false (c : HTTPBasicCredentials) :
  validb API_KEY API_PASSWORD c = false -> ~ valid API_KEY API_PASSWORD c.
Proof. intros H Hc. apply validb_spec in Hc. congruence. Qed.

Lemma within_limitb_spec (w : World) (key : string) :
  within_limitb w key = true <-> within_limit w key.
Proof. unfold within_limitb, within_limit. apply Nat.ltb_lt. Qed.

Lemma within_limitb_false (w : World) (key : string) :
  within_limitb w key = false <-> exceeded w key.
Proof.
  unfold within_limitb, exceeded. rewrite Nat.ltb_ge. reflexivity.
Qed.

(** The outcome of [GET /contacts] in each of its cases. *)
Lemma get_contacts_cases (db : Session) (request : Request) (w : World) :
  get_contacts API_KEY API_PASSWORD db request w
  = if negb (validb API_KEY API_PASSWORD (credentials request)) then
      (inl {| status_code := 403;
              detail := "Could not validate credentials" |},
       logged w [Log WARNING "Invalid API Key or Password"])
    else if negb (within_limitb w (client_host request)) then
      (inl {| status_code := 429; detail := "20 per 1 minute" |},
       counted w (client_host request))
    else
      lookup_contact db (query_Number request) (query_Email request)
        (counted w (client_host request)).
Proof.
  destruct (validb _ _ _) eqn:Hv; cbn [negb].
  - apply validb_spec in Hv. rewrite get_contacts_valid by assumption.
    destruct (within_limitb _ _) eqn:Hl; cbn [negb].
    + apply within_limitb_spec in Hl. now apply limit_within.
    + apply within_limitb_false in Hl. now apply limit_exceeded.
  - apply validb_false in Hv. now apply get_contacts_invalid.
Qed.

Lemma lookup_contact_cases (db : Session) (Number Email : option string)
    (w : World) :
  lookup_contact db Number Email w
  = if negb (Py.truthy Number) && negb (Py.truthy Email) then
      (inl {| status_code := 400;
              detail := "Either Number or Email must be provided" |}, w)
    else
      match failure db with
      | Some exn =>
          (inl {| status_code := 500; detail := "Database error occurred." |},
           logged w [Execute (build_parameters Number Email);
                     Log ERROR ("Database error: " +:+ exn)])
      | None =>
          match List.filter (keep (like_escape db) Number Email) (Users db)
          with
          | [] =>
              (inl {| status_code := 404; detail := "Contact not found" |},
               logged w [Execute (build_parameters Number Email)])
          | u :: us =>
              (inr {| contacts := contact_data <$> (select <$> u :: us) |},
               logged w [Execute (build_parameters Number Email)])
          end
      end.
Proof.
  destruct (negb (Py.truthy Number) && negb (Py.truthy Email)) eqn:Hq.
  - apply andb_true_iff in Hq as [HN HE].
    apply negb_true_iff in HN. apply negb_true_iff in HE.
    now apply lookup_contact_missing.
  - rewrite lookup_contact_run
      by (destruct (Py.truthy Number), (Py.truthy Email); done).
    destruct (failure db) as [exn|] eqn:Hf.
    + unfold execute. now rewrite Hf.
    + rewrite execute_build_parameters by assumption.
      destruct (List.filter _ (Users db)) as [|u us]; reflexivity.
Qed.

End Table.

Lemma filter_sublist {A : Type} (f : A -> bool) (l : list A) :
  sublist (List.filter f l) l.
Proof.
  induction l as [|x l IH]; simpl; [constructor |].
  destruct (f x); [now apply sublist_skip | now apply sublist_cons].
Qed.

Lemma contactid_contact_data_select (l : list UsersRow) :
  Contact.contactid <$> (contact_data <$> (select <$> l)) = ID <$> l.
Proof.
  induction l as [|u l IH]; [reflexivity |].
  rewrite !fmap_cons, IH. reflexivity.
Qed.

(** X1. The status of every response is given by the order of the steps:
    403 for credentials that do not match, else 429 over the limit, else
    400 without Number and Email, else 500 when the session fails, else
    404 when no row is kept, else 200. *)
Theorem X1_status_table (API_KEY API_PASSWORD : string) (db : Session)
    (request : Request) (w : World) :
  status_of (fst (get_contacts API_KEY API_PASSWORD db request w))
  = expected_status API_KEY API_PASSWORD db request w.
Proof.
  rewrite get_contacts_cases. unfold expected_status.
  destruct (negb (validb _ _ _)); [reflexivity |].
  destruct (negb (within_limitb _ _)); [reflexivity |].
  rewrite lookup_contact_cases.
  destruct (negb _ && negb _); [reflexivity |].
  destruct (failure db); [reflexivity |].
  destruct (List.filter _ _); reflexivity.
Qed.

(** X2. A request executes the query once when its credentials match, the
    limiter lets it through and it has a Number or an Email; in every
    other case it executes no query. *)
Theorem X2_query_executed_once (API_KEY API_PASSWORD : string)
    (db : Session) (request : Request) (w : World) :
  executed (trace (snd (get_contacts API_KEY API_PASSWORD db request w)))
  = executed (trace w)
    ++ (if reaches_query API_KEY API_PASSWORD request w
        then [build_parameters (query_Number request) (query_Email request)]
        else []).
Proof.
  rewrite get_contacts_cases. unfold reaches_query.
  destruct (validb _ _ _); cbn [negb andb].
  - destruct (within_limitb _ _); cbn [negb andb].
    + rewrite lookup_contact_cases.
      destruct (Py.truthy (query_Number request)),
        (Py.truthy (query_Email request)); cbn [negb andb orb];
        try (destruct (failure db);
             [| destruct (List.filter _ _)];
             cbn [snd logged counted trace]; now rewrite executed_app).
      cbn [snd counted trace]. now rewrite app_nil_r.
    + cbn [snd counted trace]. now rewrite app_nil_r.
  - cbn [snd logged trace]. now rewrite executed_app.
Qed.

(** X3. [parameters] always binds the four names of the query, so the
    execution fails exactly when the session does, with its exception. *)
Theorem X3_execute_fails_with_session (db : Session)
    (Number Email : option string) (exn : string) :
  dom (build_parameters Number Email)
  = ({["number"; "like_pattern"; "email"; "exact_email"]} : gset string)
  /\ (execute db (build_parameters Number Email) = inl exn
      <-> failure db = Some exn).
Proof.
  split.
  - unfold build_parameters.
    destruct (Py.truthy Number), (Py.truthy Email);
      rewrite !dom_insert_L, dom_empty_L; set_solver.
  - destruct (failure db) as [e|] eqn:Hf.
    + unfold execute. rewrite Hf. split; congruence.
    + rewrite execute_build_parameters by assumption. split; discriminate.
Qed.

(** X4. A response that carries contacts comes from a request with
    matching credentials, within the limit, on a session that answers; its
    list of contacts is not empty, it holds one entry per row kept, in the
    order of the table, and the identifiers are those of the rows. *)
Theorem X4_success_response (API_KEY API_PASSWORD : string) (db : Session)
    (request : Request) (w : World) (response : Response) :
  fst (get_contacts API_KEY API_PASSWORD db request w) = inr response ->
  let kept := List.filter
                (keep (like_escape db) (query_Number request)
                   (query_Email request)) (Users db) in
  contacts response = contact_data <$> (select <$> kept)
  /\ contacts response <> []
  /\ Contact.contactid <$> contacts response = ID <$> kept
  /\ sublist (Contact.contactid <$> contacts response) (ID <$> Users db)
  /\ valid API_KEY API_PASSWORD (credentials request)
  /\ within_limit w (client_host request)
  /\ failure db = None.
Proof.
  rewrite get_contacts_cases. intros H kept.
  destruct (validb _ _ _) eqn:Hv; cbn [negb] in H; [| discriminate].
  destruct (within_limitb _ _) eqn:Hl; cbn [negb] in H; [| discriminate].
  rewrite lookup_contact_cases in H.
  destruct (negb _ && negb _); [discriminate |].
  destruct (failure db); [discriminate |].
  fold kept in H. destruct kept as [|u us] eqn:Hk; [discriminate |].
  match type of H with
  | fst (?a, _) = _ => change (a = inr response) in H
  end.
  assert (Hr : response
               = {| contacts := contact_data <$> (select <$> u :: us) |})
    by congruence.
  clear H. subst response. cbv beta iota delta [contacts].
  assert (Hids : Contact.contactid <$> (contact_data <$> (select <$> u :: us))
                 = ID <$> u :: us) by apply contactid_contact_data_select.
  split; [reflexivity | split; [discriminate | split; [exact Hids |]]].
  split; [| split; [now apply validb_spec
                   | split; [now apply within_limitb_spec | reflexivity]]].
  rewrite Hids, <- Hk. apply fmap_sublist, filter_sublist.
Qed.

Lemma X4_success_response_witness :
  let r := get_contacts "key" "secret" Scenario.directory
             (Sample.request "secret" (Some "555") (Some "bo@b.com"))
             Sample.w0 in
  exists response,
    fst r = inr response
    /\ Contact.contactid <$> contacts response = [1; 2; 6].
Proof.
  intros r. eexists. split; [reflexivity |].
  destruct (X4_success_response "key" "secret" Scenario.directory
              (Sample.request "secret" (Some "555") (Some "bo@b.com"))
              Sample.w0 _ eq_refl)
    as (_ & _ & Hids & _).
  exact Hids.
Defined.

(** ** Spaces in the Number, and empty parameters *)

Lemma phone_like_stripped (e : Sql.LikeEscape) (Number Number' : string)
    (col : option string) :
  Py.replace_space Number = Py.replace_space Number' ->
  phone_like e Number col = phone_like e Number' col.
Proof. intros H. unfold phone_like. now rewrite H. Qed.

Lemma keep_stripped (e : Sql.LikeEscape) (Number Number' : string)
    (Email : option string) (u : UsersRow) :
  Number <> "" -> Number' <> "" ->
  Py.replace_space Number = Py.replace_space Number' ->
  keep e (Some Number) Email u = keep e (Some Number') Email u.
Proof.
  intros HN HN' H. unfold keep. rewrite !truthy_Some by assumption.
  change (default "" (Some Number)) with Number.
  change (default "" (Some Number')) with Number'.
  now rewrite !(phone_like_stripped e Number Number' _ H).
Qed.

(** X5. Two Numbers that differ only in their spaces give the same rows
    and the same response, whatever else they hold (wildcards included)
    and whatever the Email. *)
Theorem X5_number_spacing (db : Session) (Number Number' : string)
    (Email : option string) (w : World) :
  Number <> "" ->
  Number' <> "" ->
  Py.replace_space Number = Py.replace_space Number' ->
  execute db (build_parameters (Some Number) Email)
  = execute db (build_parameters (Some Number') Email)
  /\ fst (lookup_contact db (Some Number) Email w)
     = fst (lookup_contact db (Some Number') Email w).
Proof.
  intros HN HN' H.
  assert (Hkeep : List.filter (keep (like_escape db) (Some Number) Email)
                    (Users db)
                  = List.filter (keep (like_escape db) (Some Number') Email)
                      (Users db)).
  { apply filter_ext_bool. intros u. now apply keep_stripped. }
  split.
  - destruct (failure db) as [exn|] eqn:Hf.
    + unfold execute. now rewrite Hf.
    + rewrite !execute_build_parameters by assumption. now rewrite Hkeep.
  - rewrite !lookup_contact_cases, !truthy_Some by assumption.
    cbn [negb andb]. rewrite Hkeep. clear Hkeep.
    destruct (failure db); [reflexivity |].
    destruct (List.filter (keep (like_escape db) (Some Number') Email)
                (Users db)); reflexivity.
Qed.

Lemma X5_number_spacing_witness :
  execute Scenario.directory (build_parameters (Some " 5 5 5 1") None)
  = execute Scenario.directory (build_parameters (Some "55 51") None).
Proof.
  apply (X5_number_spacing Scenario.directory " 5 5 5 1" "55 51" None
           Sample.w0).
  - discriminate.
  - discriminate.
  - reflexivity.
Defined.

(** X6. A parameter given empty is handled as a parameter not given: the
    same response, the same bound values (NULL, not the empty string), the
    same trace. *)
Theorem X6_empty_as_absent (API_KEY API_PASSWORD : string) (db : Session)
    (host : string) (c : HTTPBasicCredentials) (Number Email : option string)
    (w : World) :
  let request N E :=
    {| client_host := host; credentials := c;
       query_Number := N; query_Email := E |} in
  get_contacts API_KEY API_PASSWORD db (request (Some "") Email) w
  = get_contacts API_KEY API_PASSWORD db (request None Email) w
  /\ get_contacts API_KEY API_PASSWORD db (request Number (Some "")) w
     = get_contacts API_KEY API_PASSWORD db (request Number None) w
  /\ build_parameters (Some "") (Some "") !! "like_pattern" = Some None
  /\ build_parameters (Some "") (Some "") !! "exact_email" = Some None.
Proof.
  intros request. split; [reflexivity | split; [reflexivity | split]].
  - now rewrite build_parameters_like_pattern.
  - now rewrite build_parameters_exact_email.
Qed.

(** ** The name, cut at its first space *)

Lemma no_space_append_space (t rest : string) :
  no_space (t +:+ " " +:+ rest) = false.
Proof.
  induction t as [|c t IH]; [reflexivity |].
  rewrite append_cons. simpl. rewrite IH. apply andb_false_r.
Qed.

Lemma split_spec (s : string) :
  exists (t : string) (ts : list string),
    Py.split " " s = t :: ts
    /\ no_space t = true
    /\ Forall (fun x => no_space x = true) ts
    /\ Py.join " " (t :: ts) = s.
Proof.
  induction s as [|c s (t & ts & Hsplit & Ht & Hts & Hjoin)].
  - exists "", []. repeat split; constructor.
  - simpl. rewrite Hsplit. destruct (Ascii.eqb_spec c " ") as [->|Hc].
    + exists "", (t :: ts). repeat split; [now constructor |].
      change (Py.join " " ("" :: t :: ts))
        with ("" +:+ " " +:+ Py.join " " (t :: ts)).
      now rewrite Hjoin.
    + exists (String c t), ts. repeat split; [| assumption |].
      * simpl. rewrite Ht.
        destruct (Ascii.eqb_spec c " "); [contradiction | reflexivity].
      * destruct ts as [|t' ts'].
        -- simpl in *. now rewrite Hjoin.
        -- change (Py.join " " (String c t :: t' :: ts'))
             with (String c t +:+ " " +:+ Py.join " " (t' :: ts')).
           rewrite append_cons. f_equal. exact Hjoin.
Qed.

(** X7. For every display name, firstname holds no space; a name with no
    space gives itself as firstname and an empty lastname; any other name
    is firstname, one space, lastname: the name is cut at its first space
    and nothing of it is lost (a name that starts with a space has an
    empty firstname). *)
Theorem X7_name_cut_at_first_space (contact : Row.t) (name : string) :
  Row.firstname contact = Some name ->
  let first := Contact.firstname (contact_data contact) in
  let last := Contact.lastname (contact_data contact) in
  no_space first = true
  /\ (if no_space name then first = name /\ last = ""
      else name = first +:+ " " +:+ last).
Proof.
  intros Hname first last.
  destruct (split_spec name) as (t & ts & Hsplit & Ht & Hts & Hjoin).
  assert (Hparts : Py.split " " (Py.or_empty (Row.firstname contact)) = t :: ts).
  { rewrite Hname, or_empty_default. exact Hsplit. }
  assert (Hfirst : first = t).
  { unfold first, contact_data. cbn [Contact.firstname]. now rewrite Hparts. }
  assert (Hlast : last = Py.join " " ts).
  { unfold last, contact_data. cbn [Contact.lastname]. rewrite Hparts.
    destruct ts; reflexivity. }
  rewrite Hfirst, Hlast. split; [exact Ht |].
  rewrite <- Hjoin. destruct ts as [|t' ts'].
  - cbn [Py.join]. rewrite Ht. split; reflexivity.
  - change (Py.join " " (t :: t' :: ts'))
      with (t +:+ " " +:+ Py.join " " (t' :: ts')).
    rewrite no_space_append_space. reflexivity.
Qed.

Lemma X7_name_cut_at_first_space_witness :
  let contact := select (Sample.user 7 (Some " Jane  Public") None None) in
  no_space (Contact.firstname (contact_data contact)) = true
  /\ " Jane  Public"
     = Contact.firstname (contact_data contact)
       +:+ " " +:+ Contact.lastname (contact_data contact).
Proof.
  intros contact.
  exact (X7_name_cut_at_first_space contact " Jane  Public" eq_refl).
Defined.

(** ** The limiter over sequences of requests *)

Section Sequences.

Variables (API_KEY API_PASSWORD : string).

Lemma hits_logged (w : World) (events : list Event) (key : string) :
  hits (logged w events) key = hits w key.
Proof. reflexivity. Qed.

Lemma hits_counted_ne (w : World) (key key' : string) :
  key <> key' -> hits (counted w key) key' = hits w key'.
Proof.
  intros Hne. unfold hits, counted. cbn [storage].
  now rewrite lookup_insert_ne.
Qed.

Lemma get_contacts_storage (db : Session) (request : Request) (w : World) :
  storage (snd (get_contacts API_KEY API_PASSWORD db request w))
  = if validb API_KEY API_PASSWORD (credentials request)
    then storage (counted w (client_host request))
    else storage w.
Proof.
  rewrite get_contacts_cases.
  destruct (validb _ _ _); cbn [negb]; [| reflexivity].
  destruct (within_limitb _ _); cbn [negb]; [| reflexivity].
  apply lookup_contact_storage.
Qed.

(** The response depends on the world through the counter of the address
    of the request only. *)
Lemma get_contacts_frame (db : Session) (request : Request) (w w' : World) :
  hits w (client_host request) = hits w' (client_host request) ->
  fst (get_contacts API_KEY API_PASSWORD db request w)
  = fst (get_contacts API_KEY API_PASSWORD db request w').
Proof.
  intros H. rewrite !get_contacts_cases. unfold within_limitb. rewrite H.
  destruct (negb (validb _ _ _)); [reflexivity |].
  destruct (negb (_ <? _)%nat); [reflexivity |].
  rewrite !lookup_contact_cases.
  destruct (negb _ && negb _); [reflexivity |].
  destruct (failure db); [reflexivity |].
  destruct (List.filter _ _); reflexivity.
Qed.

Lemma status_429 (db : Session) (request : Request) (w : World) :
  status_of (fst (get_contacts API_KEY API_PASSWORD db request w)) = 429
  <-> validb API_KEY API_PASSWORD (credentials request) = true
      /\ exceeded w (client_host request).
Proof.
  rewrite get_contacts_cases, <- within_limitb_false.
  destruct (validb _ _ _); cbn [negb].
  - destruct (within_limitb _ _); cbn [negb].
    + rewrite lookup_contact_cases.
      destruct (negb _ && negb _);
        [| destruct (failure db); [| destruct (List.filter _ _)]];
        cbn [fst status_of status_code]; split; intros H;
        try discriminate; destruct H; discriminate.
    + split; [now split | reflexivity].
  - cbn [fst status_of status_code]. split; [discriminate | intros []].
    discriminate.
Qed.

Lemma serve_invalid (db : Session) (requests : list Request) (w : World) :
  Forall (fun request =>
            ~ valid API_KEY API_PASSWORD (credentials request)) requests ->
  serve API_KEY API_PASSWORD db requests w
  = logged w (replicate (List.length requests)
                (Log WARNING "Invalid API Key or Password")).
Proof.
  intros H. revert w. induction H as [|request requests Hbad _ IH];
    intros w; simpl.
  - unfold logged. rewrite app_nil_r. now destruct w.
  - rewrite get_contacts_invalid by assumption. cbn [snd]. rewrite IH.
    unfold logged. cbn [storage trace]. now rewrite <- app_assoc.
Qed.

End Sequences.

(** X8. A request moves the counter of its own address only: the hits
    counted for any other address are what they were. *)
Theorem X8_limit_per_address (API_KEY API_PASSWORD : string) (db : Session)
    (request : Request) (w : World) (key : string) :
  key <> client_host request ->
  hits (snd (get_contacts API_KEY API_PASSWORD db request w)) key
  = hits w key.
Proof.
  intros Hne. unfold hits at 1. rewrite get_contacts_storage.
  destruct (validb _ _ _); [| reflexivity].
  apply hits_counted_ne. congruence.
Qed.

Lemma X8_limit_per_address_witness :
  hits (snd (get_contacts "key" "secret" Scenario.directory
               (Scenario.elsewhere "secret" (Some "555") None) Sample.w20))
    "10.0.0.1"
  = 20%nat.
Proof.
  apply (X8_limit_per_address "key" "secret" Scenario.directory
           (Scenario.elsewhere "secret" (Some "555") None) Sample.w20
           "10.0.0.1").
  discriminate.
Defined.

(** X9. From an address with no hit in the window, after any number of
    requests with matching credentials, the next such request is answered
    429 exactly when twenty or more came before it. *)
Theorem X9_limit_after_twenty (API_KEY API_PASSWORD : string) (db : Session)
    (requests : list Request) (request : Request) (w : World) :
  hits w (client_host request) = 0%nat ->
  Forall (fun r =>
            valid API_KEY API_PASSWORD (credentials r)
            /\ client_host r = client_host request) requests ->
  valid API_KEY API_PASSWORD (credentials request) ->
  status_of
    (fst (get_contacts API_KEY API_PASSWORD db request
            (serve API_KEY API_PASSWORD db requests w))) = 429
  <-> (20 <= List.length requests)%nat.
Proof.
  intros H0 Hall Hc. rewrite status_429. unfold exceeded.
  rewrite (hits_serve_valid _ _ db (client_host request)) by assumption.
  rewrite H0. apply validb_spec in Hc. unfold limit_amount.
  split; [intros [_ H]; lia | intros H; split; [assumption | lia]].
Qed.

Lemma X9_limit_after_twenty_witness :
  let good := Sample.request "secret" (Some "555") None in
  status_of
    (fst (get_contacts "key" "secret" Scenario.directory good
            (serve "key" "secret" Scenario.directory (replicate 20 good)
               Sample.w0))) = 429.
Proof.
  intros good.
  apply (X9_limit_after_twenty "key" "secret" Scenario.directory
           (replicate 20 good) good Sample.w0).
  - reflexivity.
  - repeat constructor.
  - split; reflexivity.
  - simpl. lia.
Defined.

(** X10. Requests with credentials that do not match are never counted by
    the limiter, however many they are: after them the counters are what
    they were, no query was executed, one warning per request is in the
    log, and any request gets the response it would have got without
    them. *)
Theorem X10_refused_requests_not_counted (API_KEY API_PASSWORD : string)
    (db : Session) (requests : list Request) (request : Request)
    (w : World) :
  Forall (fun r => ~ valid API_KEY API_PASSWORD (credentials r)) requests ->
  let w' := serve API_KEY API_PASSWORD db requests w in
  storage w' = storage w
  /\ trace w'
     = trace w ++ replicate (List.length requests)
                    (Log WARNING "Invalid API Key or Password")
  /\ executed (trace w') = executed (trace w)
  /\ fst (get_contacts API_KEY API_PASSWORD db request w')
     = fst (get_contacts API_KEY API_PASSWORD db request w).
Proof.
  intros Hall w'. unfold w'. rewrite serve_invalid by assumption.
  split; [reflexivity | split; [reflexivity | split]].
  - cbn [logged trace]. rewrite executed_app.
    induction (List.length requests) as [|n IH]; [apply app_nil_r |].
    exact IH.
  - apply get_contacts_frame. reflexivity.
Qed.

Lemma X10_refused_requests_not_counted_witness :
  let bad := Sample.request "guess" (Some "555") None in
  let good := Sample.request "secret" (Some "555") None in
  let w' := serve "key" "secret" Scenario.directory (replicate 50 bad)
              Sample.w0 in
  storage w' = storage Sample.w0
  /\ fst (get_contacts "key" "secret" Scenario.directory good w')
     = fst (get_contacts "key" "secret" Scenario.directory good Sample.w0).
Proof.
  intros bad good w'.
  destruct (X10_refused_requests_not_counted "key" "secret"
              Scenario.directory (replicate 50 bad) good Sample.w0)
    as (Hstorage & _ & _ & Hsame).
  - apply Forall_forall. intros r Hin.
    apply elem_of_replicate in Hin as [-> _].
    intros [_ Hp]. discriminate Hp.
  - split; [exact Hstorage | exact Hsame].
Defined.

(** ** What the query can return *)

Lemma phone_like_not_null (e : Sql.LikeEscape) (Number : string)
    (col : option string) :
  phone_like e Number col = true -> bool_decide (col <> None) = true.
Proof. destruct col; [reflexivity | discriminate]. Qed.

Lemma keep_sound (e : Sql.LikeEscape) (Number Email : option string)
    (u : UsersRow) :
  keep e Number Email u = true ->
  (Py.truthy Number = true /\ has_phone u = true)
  \/ (Py.truthy Email = true /\ EmailAddress u = Email).
Proof.
  unfold keep, has_phone. intros H. apply orb_true_iff in H as [H | H].
  - apply andb_true_iff in H as [HN H]. left. split; [exact HN |].
    apply orb_true_iff in H as [H | H];
      [apply orb_true_iff in H as [H | H] |];
      apply phone_like_not_null in H; rewrite H;
      rewrite ?orb_true_r; reflexivity.
  - apply andb_true_iff in H as [HE H]. apply bool_decide_eq_true in H.
    right. split; assumption.
Qed.

(** X11. Whatever the Number and the Email (wildcards included), every
    row the query returns is a row of the table, in the order of the
    table, and it has a phone column that is not NULL when it is returned
    for the Number, or the Email as its email: a contact with no phone and
    no email is never returned. *)
Theorem X11_results_sound (db : Session) (Number Email : option string)
    (rows : list Row.t) (r : Row.t) :
  execute db (build_parameters Number Email) = inr rows ->
  r ∈ rows ->
  sublist rows (select <$> Users db)
  /\ exists u : UsersRow,
       u ∈ Users db
       /\ r = select u
       /\ ((Py.truthy Number = true /\ has_phone u = true)
           \/ (Py.truthy Email = true /\ EmailAddress u = Email)).
Proof.
  intros Hrun Hin.
  destruct (failure db) as [exn|] eqn:Hf.
  { unfold execute in Hrun. rewrite Hf in Hrun. discriminate. }
  rewrite execute_build_parameters in Hrun by assumption.
  assert (Hrows : rows = select <$> List.filter
                           (keep (like_escape db) Number Email) (Users db))
    by congruence.
  clear Hrun. subst rows. split.
  - apply fmap_sublist, filter_sublist.
  - apply list_elem_of_fmap in Hin as (u & -> & Hu).
    apply list_elem_of_In, filter_In in Hu as [Hu Hkeep].
    exists u. split; [now apply list_elem_of_In | split; [reflexivity |]].
    now apply keep_sound in Hkeep.
Qed.

Lemma X11_results_sound_witness :
  exists u : UsersRow,
    u ∈ Users Scenario.directory
    /\ select Sample.jane = select u
    /\ ((Py.truthy (Some "%") = true /\ has_phone u = true)
        \/ (Py.truthy None = true /\ EmailAddress u = None)).
Proof.
  apply (X11_results_sound Scenario.directory (Some "%") None
           [select Sample.jane; select Sample.spaced] (select Sample.jane)).
  - reflexivity.
  - apply list_elem_of_here.
Defined.

(** X12. From a row of [Users] to an entry of the response: the identifier
    is that of the row, company is Organization, phonebusiness is
    WorkPhone, phonemobile is MobilePhone, phonehome is HomePhone, each
    with the empty string for NULL, and email is EmailAddress; the column
    selected as lastname is never read, both names come from the one
    selected as firstname. *)
Theorem X12_columns_to_fields (u : UsersRow) (contact : Row.t)
    (other : option string) :
  let entry := contact_data (select u) in
  Contact.contactid entry = ID u
  /\ Contact.company entry = default "" (Organization u)
  /\ Contact.phonebusiness entry = default "" (WorkPhone u)
  /\ Contact.phonemobile entry = default "" (MobilePhone u)
  /\ Contact.phonehome entry = default "" (HomePhone u)
  /\ Contact.email entry = EmailAddress u
  /\ contact_data
       {| Row.contactid := Row.contactid contact;
          Row.firstname := Row.firstname contact;
          Row.lastname := other;
          Row.PhoneBusiness := Row.PhoneBusiness contact;
          Row.PhoneMobile := Row.PhoneMobile contact;
          Row.PhoneHome := Row.PhoneHome contact;
          Row.Email := Row.Email contact;
          Row.company := Row.company contact |}
     = contact_data contact.
Proof.
  intros entry. unfold entry, contact_data, select.
  cbn [Contact.contactid Contact.company Contact.phonebusiness
       Contact.phonemobile Contact.phonehome Contact.email
       Row.contactid Row.firstname Row.company Row.PhoneBusiness
       Row.PhoneMobile Row.PhoneHome Row.Email].
  rewrite !or_empty_default. repeat split.
Qed.

(** X13. With a Number and an Email, both not empty, the rows returned are
    those that the lookup by the Number alone returns or the lookup by
    the Email alone returns, whatever the Number holds (wildcards
    included): the two conditions are joined by OR, never by AND. *)
Theorem X13_both_is_either_lookup (db : Session) (Number Email : string) :
  failure db = None ->
  Number <> "" ->
  Email <> "" ->
  exists phone email : UsersRow -> bool,
    execute db (build_parameters (Some Number) None)
    = inr (select <$> List.filter phone (Users db))
    /\ execute db (build_parameters None (Some Email))
       = inr (select <$> List.filter email (Users db))
    /\ execute db (build_parameters (Some Number) (Some Email))
       = inr (select <$> List.filter (fun u => phone u || email u) (Users db)).
Proof.
  intros Hok HN HE.
  exists (keep (like_escape db) (Some Number) None),
         (keep (like_escape db) None (Some Email)).
  rewrite !execute_build_parameters by assumption.
  split; [reflexivity | split; [reflexivity |]].
  do 2 f_equal. apply filter_ext_bool. intros u. now apply keep_both.
Qed.

Lemma X13_both_is_either_lookup_witness :
  exists phone email : UsersRow -> bool,
    execute Scenario.directory (build_parameters (Some "5_5") None)
    = inr (select <$> List.filter phone (Users Scenario.directory))
    /\ execute Scenario.directory (build_parameters None (Some "bo@b.com"))
       = inr (select <$> List.filter email (Users Scenario.directory))
    /\ execute Scenario.directory
         (build_parameters (Some "5_5") (Some "bo@b.com"))
       = inr (select <$> List.filter (fun u => phone u || email u)
                           (Users Scenario.directory)).
Proof.
  apply (X13_both_is_either_lookup Scenario.directory "5_5" "bo@b.com").
  - reflexivity.
  - discriminate.
  - discriminate.
Defined.
